(** * PmodAQS: the CCS811 bus driver and polling loop of [src/main.c]

    A shallow embedding of the register protocol ([writeRegister],
    [writeMailbox], [writeNoData], [readMailbox]), of the interrupt
    handlers, of the boot sequence and of one turn of the read loop of
    [main], followed by the properties stated about them.

    Modelling conventions.
    - C integers are [Z]; a [uint8_t] is a [Z] reduced modulo 256 where the
      source converts to it, a [uint32_t] modulo 2^32.
    - The I2C peripheral and the emlib/I2CSPM driver are outside the
      repository.  A bus is a function giving, for the n-th transfer started,
      the status the transfer ends with and the bytes the device delivered.
    - Everything the program does to the outside world (bus transfers,
      delays, LED writes, sleeping) is appended to a log, oldest first.
    - A computation is a function from the machine state to an optional
      result and a new state; no result means that control never comes back
      (the polling loop of [writeNoData] on a transfer that stays in
      progress).
    - Clock, pin, bus-peripheral, LED and tick bring-up at the top of
      [main] are platform initialisation and are taken as done; the model
      starts at the first [Delay]. *)

From Stdlib Require Import ZArith List Bool Lia.
Import ListNotations.
Local Open Scope Z_scope.

(** ** Constants of [main.c] *)

Definition I2C_ADDRESS : Z := 0xB6.

Definition CCS811_ADDR_STATUS          : Z := 0x00.
Definition CCS811_ADDR_MEASURE_MODE    : Z := 0x01.
Definition CCS811_ADDR_ALG_RESULT_DATA : Z := 0x02.
Definition CCS811_ADDR_RAW_DATA        : Z := 0x03.
Definition CCS811_ADDR_ENV_DATA        : Z := 0x05.
Definition CCS811_ADDR_NTC             : Z := 0x06.
Definition CCS811_ADDR_THRESHOLDS      : Z := 0x10.
Definition CCS811_ADDR_HW_ID           : Z := 0x20.
Definition CCS811_ADDR_HW_VERSION      : Z := 0x21.
Definition CCS811_ADDR_FW_BOOT_VERSION : Z := 0x23.
Definition CCS811_ADDR_FW_APP_VERSION  : Z := 0x24.
Definition CCS811_ADDR_ERR_ID          : Z := 0xE0.
Definition CCS811_ADDR_FW_ERASE        : Z := 0xF1.
Definition CCS811_ADDR_FW_PROGRAM      : Z := 0xF2.
Definition CCS811_ADDR_FW_VERIFY       : Z := 0xF3.
Definition CCS811_ADDR_APP_START       : Z := 0xF4.
Definition CCS811_ADDR_SW_RESET        : Z := 0xFF.

Definition CCS811_MEASURE_MODE_DRIVE_MODE_SHIFT : Z := 4.
Definition CCS811_MEASURE_MODE_DRIVE_MODE_IDLE  : Z := 0x00.
Definition CCS811_MEASURE_MODE_DRIVE_MODE_1SEC  : Z := 0x10.
Definition CCS811_MEASURE_MODE_DRIVE_MODE_10SEC : Z := 0x20.
Definition CCS811_MEASURE_MODE_DRIVE_MODE_60SEC : Z := 0x30.
Definition CCS811_MEASURE_MODE_DRIVE_MODE_RAW   : Z := 0x40.
Definition CCS811_MEASURE_MODE_INTERRUPT        : Z := 0x08.
Definition CCS811_MEASURE_MODE_THRESH           : Z := 0x04.

(** [uint8_t treshData[] = {0x03,0x84, 0x05, 0xDC}]. *)
Definition treshData : list Z := [0x03; 0x84; 0x05; 0xDC].

(** Conversions to the fixed-width unsigned types. *)
Definition to_uint8 (x : Z) : Z := x mod 256.
Definition to_uint32 (x : Z) : Z := x mod 2 ^ 32.

(** [sizeof(data)] for [uint8_t* data] on the 32-bit Cortex-M target the project builds
    for: a pointer is four bytes, whatever it points to. *)
Definition sizeof_uint8_ptr : Z := 4.

(** ** The driver interface (emlib [em_i2c.h]) *)

Inductive I2C_TransferReturn_TypeDef : Type :=
| i2cTransferInProgress
| i2cTransferDone
| i2cTransferNack
| i2cTransferBusErr
| i2cTransferArbLost
| i2cTransferUsageFault
| i2cTransferSwFault.

Definition is_done (r : I2C_TransferReturn_TypeDef) : bool :=
  match r with i2cTransferDone => true | _ => false end.

Inductive I2C_Flag : Type :=
| I2C_FLAG_WRITE
| I2C_FLAG_WRITE_READ
| I2C_FLAG_WRITE_WRITE.

(** One entry of [i2cTransfer.buf]: bytes to send together with the [len]
    field written next to them, or the destination of [len] received
    bytes. *)
Inductive I2C_Buf : Type :=
| BufTx (data : list Z) (len : Z)
| BufRx (len : Z).

Definition buf_len (b : I2C_Buf) : Z :=
  match b with BufTx _ n => n | BufRx n => n end.

Record I2C_TransferSeq_TypeDef : Type := mkSeq {
  addr  : Z;
  flags : I2C_Flag;
  buf   : list I2C_Buf
}.

(** What the bus answers to one transfer. *)
Record Response : Type := mkResponse {
  resp_status : I2C_TransferReturn_TypeDef;
  resp_rx     : list Z
}.

Definition Bus : Type := nat -> Response.

(** ** Machine state and observable events *)

Inductive Event : Type :=
| EvTransfer (seq : I2C_TransferSeq_TypeDef)
| EvDelay (dlyTicks : Z)
| EvLeds (leds : Z)
| EvEnterEM3.

Record Machine : Type := mkMachine {
  dataAvailable      : bool;      (* the global flag *)
  irq_even_enabled   : bool;      (* NVIC enable bit of GPIO_EVEN_IRQn *)
  irq_odd_enabled    : bool;      (* NVIC enable bit of GPIO_ODD_IRQn *)
  gpio_if            : Z;         (* GPIO interrupt flags, GPIO_IntGet() *)
  leds               : Z;         (* what BSP_LedsSet last wrote *)
  main_data          : list Z;    (* uint8_t data[1] of main *)
  main_algresultData : list Z;    (* uint8_t algresultData[2] of main *)
  xfers              : nat;       (* transfers started so far *)
  log                : list Event (* oldest first *)
}.

Definition set_dataAvailable (b : bool) (m : Machine) : Machine :=
  mkMachine b (irq_even_enabled m) (irq_odd_enabled m) (gpio_if m) (leds m)
            (main_data m) (main_algresultData m) (xfers m) (log m).

Definition set_irq_even (b : bool) (m : Machine) : Machine :=
  mkMachine (dataAvailable m) b (irq_odd_enabled m) (gpio_if m) (leds m)
            (main_data m) (main_algresultData m) (xfers m) (log m).

Definition set_irq_odd (b : bool) (m : Machine) : Machine :=
  mkMachine (dataAvailable m) (irq_even_enabled m) b (gpio_if m) (leds m)
            (main_data m) (main_algresultData m) (xfers m) (log m).

Definition set_gpio_if (v : Z) (m : Machine) : Machine :=
  mkMachine (dataAvailable m) (irq_even_enabled m) (irq_odd_enabled m) v
            (leds m) (main_data m) (main_algresultData m) (xfers m) (log m).

Definition set_leds (v : Z) (m : Machine) : Machine :=
  mkMachine (dataAvailable m) (irq_even_enabled m) (irq_odd_enabled m)
            (gpio_if m) v (main_data m) (main_algresultData m) (xfers m)
            (log m).

Definition set_main_data (d : list Z) (m : Machine) : Machine :=
  mkMachine (dataAvailable m) (irq_even_enabled m) (irq_odd_enabled m)
            (gpio_if m) (leds m) d (main_algresultData m) (xfers m) (log m).

Definition set_main_algresultData (d : list Z) (m : Machine) : Machine :=
  mkMachine (dataAvailable m) (irq_even_enabled m) (irq_odd_enabled m)
            (gpio_if m) (leds m) (main_data m) d (xfers m) (log m).

Definition emit (e : Event) (m : Machine) : Machine :=
  mkMachine (dataAvailable m) (irq_even_enabled m) (irq_odd_enabled m)
            (gpio_if m) (leds m) (main_data m) (main_algresultData m)
            (xfers m) (log m ++ [e]).

Definition start_transfer (seq : I2C_TransferSeq_TypeDef) (m : Machine)
  : Machine :=
  mkMachine (dataAvailable m) (irq_even_enabled m) (irq_odd_enabled m)
            (gpio_if m) (leds m) (main_data m) (main_algresultData m)
            (S (xfers m)) (log m ++ [EvTransfer seq]).

(** ** The monad of main-context code *)

Definition M (A : Type) : Type := Machine -> option A * Machine.

Definition ret {A} (a : A) : M A := fun m => (Some a, m).

Definition bind {A B} (c : M A) (k : A -> M B) : M B :=
  fun m => match c m with
           | (Some a, m') => k a m'
           | (None, m') => (None, m')
           end.

Definition get {A} (f : Machine -> A) : M A := fun m => (Some (f m), m).
Definition modify (f : Machine -> Machine) : M unit :=
  fun m => (Some tt, f m).

Notation "x <- c ;; k" := (bind c (fun x => k))
  (at level 61, c at next level, right associativity).
Notation "' pat <- c ;; k" := (bind c (fun x => match x with pat => k end))
  (at level 61, pat pattern, c at next level, right associativity).
Notation "c ;; k" := (bind c (fun _ => k))
  (at level 61, right associativity).

(** The state a computation ends in, and its result. *)
Definition exec {A} (c : M A) (m : Machine) : Machine := snd (c m).
Definition result {A} (c : M A) (m : Machine) : option A := fst (c m).

(** ** Platform collaborators *)

(** [Delay]: busy-waits on the tick counter; it shows in the log only. *)
Definition Delay (dlyTicks : Z) : M unit := modify (emit (EvDelay dlyTicks)).

Definition BSP_LedsSet (v : Z) : M unit :=
  modify (fun m => emit (EvLeds v) (set_leds v m)).

Definition EMU_EnterEM3 : M unit := modify (emit EvEnterEM3).

(** [disableSensorInterrupts]: both GPIO lines are masked in the NVIC. *)
Definition disableSensorInterrupts : M unit :=
  modify (set_irq_even false) ;;
  modify (set_irq_odd false).

(** [enableSensorInterrupts]: [NVIC_ClearPendingIRQ] acts on the NVIC's
    pending latch, which the model does not track; the enable bits are. *)
Definition enableSensorInterrupts : M unit :=
  modify (set_irq_even true) ;;
  modify (set_irq_odd true).

(** Copies the received bytes into the first [len] cells of the caller's
    buffer; cells for which no byte arrived keep what they held. *)
Fixpoint store_bytes (rx : list Z) (len : nat) (buffer : list Z) : list Z :=
  match len, rx, buffer with
  | S n, b :: rx', _ :: buffer' => to_uint8 b :: store_bytes rx' n buffer'
  | _, _, _ => buffer
  end.

Section Protocol.

Variable bus : Bus.

(** [I2CSPM_Transfer]: blocks until the transfer ends (it gives up by
    itself after a bounded number of polls) and returns its status. *)
Definition I2CSPM_Transfer (seq : I2C_TransferSeq_TypeDef)
  : M (I2C_TransferReturn_TypeDef * list Z) :=
  fun m => let r := bus (xfers m) in
           (Some (resp_status r, resp_rx r), start_transfer seq m).

(** [I2C_TransferInit] followed by
    [while (result == i2cTransferInProgress) result = I2C_Transfer(I2C0);]:
    the loop leaves with the first status that is not in-progress, and
    never leaves when the transfer stays in progress. *)
Definition I2C_Transfer_poll (seq : I2C_TransferSeq_TypeDef)
  : M I2C_TransferReturn_TypeDef :=
  fun m => match resp_status (bus (xfers m)) with
           | i2cTransferInProgress => (None, start_transfer seq m)
           | st => (Some st, start_transfer seq m)
           end.

(** ** Register protocol *)

Definition writeRegister (id data : Z) : M Z :=
  let data := to_uint8 data in
  let i2c_write_data := [id] in
  let i2cTransfer :=
    {| addr := I2C_ADDRESS;
       flags := I2C_FLAG_WRITE_WRITE;
       buf := [BufTx i2c_write_data 1; BufTx [data] 1] |} in
  ' (result, _) <- I2CSPM_Transfer i2cTransfer ;;
  if negb (is_done result) then ret 1 else ret 0.

(** [data] is what the pointer argument points to; the length written into
    the descriptor is [sizeof(data)], the size of the pointer. *)
Definition writeMailbox (id : Z) (data : list Z) : M Z :=
  let i2c_write_data := [id] in
  let i2cTransfer :=
    {| addr := I2C_ADDRESS;
       flags := I2C_FLAG_WRITE_WRITE;
       buf := [BufTx i2c_write_data 1; BufTx data sizeof_uint8_ptr] |} in
  ' (result, _) <- I2CSPM_Transfer i2cTransfer ;;
  if negb (is_done result) then ret 1 else ret 0.

(** [void writeNoData]: the status the loop ends with is a local that is
    never looked at. *)
Definition writeNoData (id : Z) : M unit :=
  let i2c_write_data := [id] in
  let i2cTransfer :=
    {| addr := I2C_ADDRESS;
       flags := I2C_FLAG_WRITE;
       buf := [BufTx i2c_write_data 1] |} in
  _ <- I2C_Transfer_poll i2cTransfer ;;
  ret tt.

(** Returns the status byte and what the caller's buffer holds afterwards. *)
Definition readMailbox (id length : Z) (data : list Z) : M (Z * list Z) :=
  let length := to_uint8 length in
  let i2c_write_data := [id] in
  let i2cTransfer :=
    {| addr := I2C_ADDRESS;
       flags := I2C_FLAG_WRITE_READ;
       buf := [BufTx i2c_write_data 1; BufRx length] |} in
  ' (result, rx) <- I2CSPM_Transfer i2cTransfer ;;
  let data := store_bytes rx (Z.to_nat length) data in
  if negb (is_done result) then ret (1, data) else ret (0, data).

End Protocol.

(** ** Interrupt handlers *)

Definition GPIO_EVEN_IRQHandler (m : Machine) : Machine :=
  let interruptMask := gpio_if m in
  let m := set_gpio_if (Z.land (gpio_if m) (Z.lnot interruptMask)) m in
  set_dataAvailable true m.

Definition GPIO_ODD_IRQHandler (m : Machine) : Machine :=
  let interruptMask := gpio_if m in
  let m := set_gpio_if (Z.land (gpio_if m) (Z.lnot interruptMask)) m in
  set_dataAvailable true m.

(** ** The classifier *)

Inductive AirQualityLevel : Type := Good | Warning | Alert.

Definition severity (l : AirQualityLevel) : nat :=
  match l with Good => 0%nat | Warning => 1%nat | Alert => 2%nat end.

(** The LED pattern [main] shows for a level. *)
Definition led_pattern (l : AirQualityLevel) : Z :=
  match l with Good => 0 | Warning => 1 | Alert => 3 end.

Definition classify (concatData : Z) : AirQualityLevel :=
  if concatData >? 1200 then Alert
  else if concatData >? 900 then Warning
  else Good.

(** The three-way branch of the loop body, as [main] writes it. *)
Definition show_level (concatData : Z) : M unit :=
  if concatData >? 1200 then BSP_LedsSet 3
  else if concatData >? 900 then BSP_LedsSet 1
  else BSP_LedsSet 0.

(** [(algresultData[0] << 8) | algresultData[1]] as a [uint32_t]. *)
Definition concat_bytes (algresultData : list Z) : Z :=
  to_uint32 (Z.lor (Z.shiftl (nth 0 algresultData 0) 8)
                   (nth 1 algresultData 0)).

Section Main.

Variable bus : Bus.

(** ** Boot sequence: [main] from [Delay(1000)] to the first sleep *)

Definition boot : M unit :=
  Delay 1000 ;;
  Delay 10 ;;
  data <- get main_data ;;
  ' (_, data) <- readMailbox bus CCS811_ADDR_HW_ID 1 data ;;
  modify (set_main_data data) ;;
  Delay 10 ;;
  ' (_, data) <- readMailbox bus CCS811_ADDR_STATUS 1 data ;;
  modify (set_main_data data) ;;
  Delay 10 ;;
  writeNoData bus CCS811_ADDR_FW_VERIFY ;;
  Delay 100 ;;
  writeNoData bus CCS811_ADDR_APP_START ;;
  Delay 1000 ;;
  _ <- writeRegister bus CCS811_ADDR_MEASURE_MODE
         (CCS811_MEASURE_MODE_DRIVE_MODE_1SEC
          + CCS811_MEASURE_MODE_INTERRUPT) ;;
  Delay 10 ;;
  ' (_, data) <- readMailbox bus CCS811_ADDR_ERR_ID 1 data ;;
  modify (set_main_data data) ;;
  Delay 10 ;;
  ' (_, data) <- readMailbox bus CCS811_ADDR_MEASURE_MODE 1 data ;;
  modify (set_main_data data) ;;
  enableSensorInterrupts ;;
  EMU_EnterEM3.

(** ** One turn of [while (1)] *)

Definition loop_iteration : M unit :=
  disableSensorInterrupts ;;
  avail <- get dataAvailable ;;
  (if avail then
     algresultData <- get main_algresultData ;;
     ' (_, algresultData) <-
        readMailbox bus CCS811_ADDR_ALG_RESULT_DATA 2 algresultData ;;
     modify (set_main_algresultData algresultData) ;;
     let concatData := concat_bytes algresultData in
     modify (set_dataAvailable false) ;;
     show_level concatData
   else ret tt) ;;
  enableSensorInterrupts ;;
  EMU_EnterEM3.

(** ** Runs of the whole program

    Between two turns of the loop the processor sleeps with the sensor
    interrupts enabled; that is where the handlers run.  The NVIC calls a
    handler only while its line is enabled. *)

Inductive Step : Type := FireEven | FireOdd | Turn.

Definition nvic_even (m : Machine) : Machine :=
  if irq_even_enabled m then GPIO_EVEN_IRQHandler m else m.

Definition nvic_odd (m : Machine) : Machine :=
  if irq_odd_enabled m then GPIO_ODD_IRQHandler m else m.

Definition step (s : Step) : M unit :=
  match s with
  | FireEven => modify nvic_even
  | FireOdd => modify nvic_odd
  | Turn => loop_iteration
  end.

Fixpoint steps (sched : list Step) : M unit :=
  match sched with
  | [] => ret tt
  | s :: sched' => step s ;; steps sched'
  end.

Definition main (sched : list Step) : M unit :=
  boot ;; steps sched.

End Main.

(** The state [main] starts its boot sequence in: flag false, nothing on
    the log; the two local arrays hold whatever the stack held. *)
Definition power_on (data algresultData : list Z) : Machine :=
  mkMachine false false false 0 0 data algresultData 0 [].

(** The transfers of a log, in order. *)
Fixpoint transfers (l : list Event) : list I2C_TransferSeq_TypeDef :=
  match l with
  | [] => []
  | EvTransfer seq :: l' => seq :: transfers l'
  | _ :: l' => transfers l'
  end.

(** The LED writes of a log, in order. *)
Fixpoint led_writes (l : list Event) : list Z :=
  match l with
  | [] => []
  | EvLeds v :: l' => v :: led_writes l'
  | _ :: l' => led_writes l'
  end.

(** * Vocabulary of the statements *)

(** The status byte the protocol functions return: 0 when the transfer is
    done, 1 otherwise. *)
Definition status_byte (r : I2C_TransferReturn_TypeDef) : Z :=
  if is_done r then 0 else 1.

(** The descriptor [readMailbox] fills in. *)
Definition read_seq (id length : Z) : I2C_TransferSeq_TypeDef :=
  {| addr := I2C_ADDRESS; flags := I2C_FLAG_WRITE_READ;
     buf := [BufTx [id] 1; BufRx length] |}.

(** The descriptor [writeNoData] fills in; [buf[1]] is left unset. *)
Definition command_seq (id : Z) : I2C_TransferSeq_TypeDef :=
  {| addr := I2C_ADDRESS; flags := I2C_FLAG_WRITE; buf := [BufTx [id] 1] |}.

(** The descriptor [writeRegister] and [writeMailbox] fill in. *)
Definition write_seq (id : Z) (payload : list Z) (len : Z)
  : I2C_TransferSeq_TypeDef :=
  {| addr := I2C_ADDRESS; flags := I2C_FLAG_WRITE_WRITE;
     buf := [BufTx [id] 1; BufTx payload len] |}.

(** The events of the boot sequence, in program order. *)
Definition boot_events : list Event :=
  [ EvDelay 1000; EvDelay 10;
    EvTransfer (read_seq CCS811_ADDR_HW_ID 1);
    EvDelay 10;
    EvTransfer (read_seq CCS811_ADDR_STATUS 1);
    EvDelay 10;
    EvTransfer (command_seq CCS811_ADDR_FW_VERIFY);
    EvDelay 100;
    EvTransfer (command_seq CCS811_ADDR_APP_START);
    EvDelay 1000;
    EvTransfer (write_seq CCS811_ADDR_MEASURE_MODE [0x18] 1);
    EvDelay 10;
    EvTransfer (read_seq CCS811_ADDR_ERR_ID 1);
    EvDelay 10;
    EvTransfer (read_seq CCS811_ADDR_MEASURE_MODE 1);
    EvEnterEM3 ].

(** The bus transfers of the boot sequence, in program order. *)
Definition boot_transfers : list I2C_TransferSeq_TypeDef :=
  [ read_seq CCS811_ADDR_HW_ID 1;
    read_seq CCS811_ADDR_STATUS 1;
    command_seq CCS811_ADDR_FW_VERIFY;
    command_seq CCS811_ADDR_APP_START;
    write_seq CCS811_ADDR_MEASURE_MODE
      [Z.lor CCS811_MEASURE_MODE_DRIVE_MODE_1SEC
             CCS811_MEASURE_MODE_INTERRUPT] 1;
    read_seq CCS811_ADDR_ERR_ID 1;
    read_seq CCS811_ADDR_MEASURE_MODE 1 ].

Section Turns.

Variable bus : Bus.

(** What a turn leaves behind when the flag is set: one read of two bytes,
    the flag cleared, one LED write for whatever the buffer then holds. *)
Definition serviced (m : Machine) : Machine :=
  let m1 := set_irq_odd false (set_irq_even false m) in
  let algresultData :=
    store_bytes (resp_rx (bus (xfers m))) 2 (main_algresultData m) in
  let m2 := start_transfer (read_seq CCS811_ADDR_ALG_RESULT_DATA 2) m1 in
  let m3 := set_dataAvailable false (set_main_algresultData algresultData m2) in
  let p := led_pattern (classify (concat_bytes algresultData)) in
  let m4 := emit (EvLeds p) (set_leds p m3) in
  emit EvEnterEM3 (set_irq_odd true (set_irq_even true m4)).

(** What a turn leaves behind when the flag is clear. *)
Definition idled (m : Machine) : Machine :=
  let m1 := set_irq_odd false (set_irq_even false m) in
  emit EvEnterEM3 (set_irq_odd true (set_irq_even true m1)).

End Turns.

(** A computation emits only events satisfying [Q] when its log is the
    initial log followed by such events. *)
Definition emits_only {A} (Q : Event -> Prop) (c : M A) : Prop :=
  forall m, exists l, log (exec c m) = log m ++ l /\ Forall Q l.

(** An event is well addressed when, if it is a transfer, it goes to
    [I2C_ADDRESS]. *)
Definition to_sensor (e : Event) : Prop :=
  match e with
  | EvTransfer seq => addr seq = I2C_ADDRESS
  | _ => True
  end.

(** ** Buses used in the examples *)

(** Every transfer ends well and delivers [rx]. *)
Definition bus_ok (rx : list Z) : Bus :=
  fun _ => mkResponse i2cTransferDone rx.

(** Every transfer ends well, except transfer number [k] (counted from 0,
    in the order they are started), which is not acknowledged and delivers
    nothing. *)
Definition bus_nack_at (k : nat) (rx : list Z) : Bus :=
  fun n => if Nat.eqb n k then mkResponse i2cTransferNack []
           else mkResponse i2cTransferDone rx.

(** Scenarios 1 and 2 from power-on: the boot sequence on a bus that always
    succeeds and delivers [rx], then one data-ready interrupt. *)
Definition after_first_event (rx : list Z) : Machine :=
  exec (main (bus_ok rx) [FireEven]) (power_on [0] [0; 0]).

(** The machine found by a turn whose event is pending: interrupts enabled,
    flag set by the handler, buffer holding [algresultData]. *)
Definition event_pending (algresultData : list Z) : Machine :=
  mkMachine true true true 0 0 [0] algresultData 0 [].

(** ** The tick counter and the busy-wait of [Delay]

    In the runs above a delay is one event on the log.  Here is the loop
    behind it. *)

(** [SysTick_Handler]: [msTicks++] on a [uint32_t]. *)
Definition SysTick_Handler (msTicks : Z) : Z := to_uint32 (msTicks + 1).

(** [while ((msTicks - curTicks) < dlyTicks) ;].  Between two evaluations
    of the condition any number of tick interrupts may be taken; [arrivals]
    lists these numbers, in order.  The result is the counter when the loop
    is left and the number of ticks taken since it was entered; there is no
    result when the listed arrivals are used up with the loop still
    waiting. *)
Fixpoint Delay_loop (curTicks dlyTicks : Z) (arrivals : list nat)
  (msTicks : Z) (elapsed : nat) : option (Z * nat) :=
  match arrivals with
  | [] =>
      if to_uint32 (msTicks - curTicks) <? dlyTicks then None
      else Some (msTicks, elapsed)
  | n :: rest =>
      if to_uint32 (msTicks - curTicks) <? dlyTicks then
        Delay_loop curTicks dlyTicks rest
                   (Nat.iter n SysTick_Handler msTicks) (elapsed + n)
      else Some (msTicks, elapsed)
  end.

(** [Delay(dlyTicks)] entered with the counter at [msTicks]. *)
Definition Delay_wait (dlyTicks : Z) (arrivals : list nat) (msTicks : Z)
  : option (Z * nat) :=
  let dlyTicks := to_uint32 dlyTicks in
  let curTicks := msTicks in
  Delay_loop curTicks dlyTicks arrivals msTicks 0.

(** ** Counting the steps of a schedule *)

Definition is_turn (s : Step) : bool :=
  match s with Turn => true | _ => false end.

Definition turns (sched : list Step) : nat := length (filter is_turn sched).

Definition fires (sched : list Step) : nat :=
  length (filter (fun s => negb (is_turn s)) sched).

(** 1 for a set flag, 0 for a clear one. *)
Definition pending (m : Machine) : nat :=
  if dataAvailable m then 1%nat else 0%nat.

(** The level the LEDs would show for what the result buffer holds. *)
Definition buffer_pattern (m : Machine) : Z :=
  led_pattern (classify (concat_bytes (main_algresultData m))).

(** Once an LED write has happened, the LEDs show the level of what the
    result buffer holds. *)
Definition shows_buffer (m : Machine) : Prop :=
  led_writes (log m) <> [] -> leds m = buffer_pattern m.

(** An event other than an LED write, or an LED write of one of the three
    patterns. *)
Definition led_in_range (e : Event) : Prop :=
  match e with
  | EvLeds v => v = 0 \/ v = 1 \/ v = 3
  | _ => True
  end.

(** An event other than an LED write. *)
Definition not_led (e : Event) : Prop :=
  match e with
  | EvLeds _ => False
  | _ => True
  end.

(** * Properties *)

(** ** Running computations *)

Lemma bind_modify {B} (f : Machine -> Machine) (k : unit -> M B) m :
  bind (modify f) k m = k tt (f m).
Proof. reflexivity. Qed.

Lemma bind_get {A B} (f : Machine -> A) (k : A -> M B) m :
  bind (get f) k m = k (f m) m.
Proof. reflexivity. Qed.

Lemma bind_Delay {B} d (k : unit -> M B) m :
  bind (Delay d) k m = k tt (emit (EvDelay d) m).
Proof. reflexivity. Qed.

Lemma bind_assoc {A B C} (c : M A) (k : A -> M B) (h : B -> M C) m :
  bind (bind c k) h m = bind c (fun a => bind (k a) h) m.
Proof.
  unfold bind. destruct (c m) as [[a|] m']; [|reflexivity].
  destruct (k a m') as [[b|] m'']; reflexivity.
Qed.

Section RunLemmas.

Variable bus : Bus.

Lemma readMailbox_run id length data m :
  readMailbox bus id length data m =
  (Some (status_byte (resp_status (bus (xfers m))),
         store_bytes (resp_rx (bus (xfers m)))
                     (Z.to_nat (to_uint8 length)) data),
   start_transfer (read_seq id (to_uint8 length)) m).
Proof.
  unfold readMailbox, bind, I2CSPM_Transfer, status_byte, read_seq.
  destruct (is_done (resp_status (bus (xfers m)))); reflexivity.
Qed.

Lemma writeRegister_run id data m :
  writeRegister bus id data m =
  (Some (status_byte (resp_status (bus (xfers m)))),
   start_transfer (write_seq id [to_uint8 data] 1) m).
Proof.
  unfold writeRegister, bind, I2CSPM_Transfer, status_byte, write_seq.
  destruct (is_done (resp_status (bus (xfers m)))); reflexivity.
Qed.

Lemma writeMailbox_run id data m :
  writeMailbox bus id data m =
  (Some (status_byte (resp_status (bus (xfers m)))),
   start_transfer (write_seq id data sizeof_uint8_ptr) m).
Proof.
  unfold writeMailbox, bind, I2CSPM_Transfer, status_byte, write_seq.
  destruct (is_done (resp_status (bus (xfers m)))); reflexivity.
Qed.

(** A command whose transfer ends gives control back, with no status. *)
Lemma writeNoData_run id m :
  resp_status (bus (xfers m)) <> i2cTransferInProgress ->
  writeNoData bus id m = (Some tt, start_transfer (command_seq id) m).
Proof.
  intros H. unfold writeNoData, bind, I2C_Transfer_poll, command_seq.
  destruct (resp_status (bus (xfers m))); try reflexivity.
  congruence.
Qed.

(** A command whose transfer stays in progress keeps control for ever. *)
Lemma writeNoData_spin id m :
  resp_status (bus (xfers m)) = i2cTransferInProgress ->
  writeNoData bus id m = (None, start_transfer (command_seq id) m).
Proof.
  intros H. unfold writeNoData, bind, I2C_Transfer_poll, command_seq.
  rewrite H. reflexivity.
Qed.

Lemma bind_readMailbox {B} id length data (k : Z * list Z -> M B) m :
  bind (readMailbox bus id length data) k m =
  k (status_byte (resp_status (bus (xfers m))),
     store_bytes (resp_rx (bus (xfers m)))
                 (Z.to_nat (to_uint8 length)) data)
    (start_transfer (read_seq id (to_uint8 length)) m).
Proof. unfold bind at 1. rewrite readMailbox_run. reflexivity. Qed.

Lemma bind_writeRegister {B} id data (k : Z -> M B) m :
  bind (writeRegister bus id data) k m =
  k (status_byte (resp_status (bus (xfers m))))
    (start_transfer (write_seq id [to_uint8 data] 1) m).
Proof. unfold bind at 1. rewrite writeRegister_run. reflexivity. Qed.

Lemma bind_writeNoData {B} id (k : unit -> M B) m :
  resp_status (bus (xfers m)) <> i2cTransferInProgress ->
  bind (writeNoData bus id) k m =
  k tt (start_transfer (command_seq id) m).
Proof.
  intros H. unfold bind at 1. rewrite writeNoData_run by assumption.
  reflexivity.
Qed.

Lemma show_level_run v m :
  show_level v m =
  (Some tt, emit (EvLeds (led_pattern (classify v)))
                 (set_leds (led_pattern (classify v)) m)).
Proof.
  unfold show_level, classify.
  destruct (v >? 1200); [reflexivity|].
  destruct (v >? 900); reflexivity.
Qed.

End RunLemmas.

Ltac run_boot :=
  unfold boot, enableSensorInterrupts, EMU_EnterEM3;
  repeat first
    [ rewrite bind_Delay
    | rewrite bind_modify
    | rewrite bind_get
    | rewrite bind_readMailbox
    | rewrite bind_writeRegister
    | rewrite bind_writeNoData by assumption
    | rewrite bind_assoc ];
  cbv beta iota.

Lemma boot_run (bus : Bus) (m : Machine) :
  resp_status (bus (S (S (xfers m)))) <> i2cTransferInProgress ->
  resp_status (bus (S (S (S (xfers m))))) <> i2cTransferInProgress ->
  exists m',
    boot bus m = (Some tt, m') /\
    log m' = log m ++ boot_events /\
    dataAvailable m' = dataAvailable m /\
    leds m' = leds m /\
    main_algresultData m' = main_algresultData m /\
    irq_even_enabled m' = true /\ irq_odd_enabled m' = true /\
    xfers m' = (7 + xfers m)%nat.
Proof.
  intros H2 H3. eexists. split.
  - run_boot. reflexivity.
  - cbn. rewrite <- !app_assoc. repeat split; reflexivity.
Qed.

(** ** Logs *)

Lemma transfers_app l1 l2 : transfers (l1 ++ l2) = transfers l1 ++ transfers l2.
Proof.
  induction l1 as [|e l1 IH]; [reflexivity|].
  destruct e; cbn; rewrite IH; reflexivity.
Qed.

Lemma led_writes_app l1 l2 :
  led_writes (l1 ++ l2) = led_writes l1 ++ led_writes l2.
Proof.
  induction l1 as [|e l1 IH]; [reflexivity|].
  destruct e; cbn; rewrite IH; reflexivity.
Qed.

(** ** One turn of the loop, in closed form *)

Section LoopLemmas.

Variable bus : Bus.

Lemma loop_iteration_service m :
  dataAvailable m = true ->
  loop_iteration bus m = (Some tt, serviced bus m).
Proof.
  intros Havail.
  unfold loop_iteration, disableSensorInterrupts, enableSensorInterrupts,
    EMU_EnterEM3.
  rewrite !bind_assoc, !bind_modify, bind_get. cbn [dataAvailable set_irq_odd
    set_irq_even]. rewrite Havail. cbv beta iota.
  repeat (first [ rewrite bind_assoc | rewrite bind_get
                | rewrite bind_readMailbox | rewrite bind_modify ];
          cbv beta iota).
  unfold bind at 1. rewrite show_level_run. reflexivity.
Qed.

Lemma loop_iteration_idle m :
  dataAvailable m = false ->
  loop_iteration bus m = (Some tt, idled m).
Proof.
  intros Havail.
  unfold loop_iteration, disableSensorInterrupts, enableSensorInterrupts,
    EMU_EnterEM3.
  rewrite !bind_assoc, !bind_modify, bind_get. cbn [dataAvailable set_irq_odd
    set_irq_even]. rewrite Havail.
  reflexivity.
Qed.

(** Turns taken while no handler runs, starting with the flag clear, touch
    neither the bus nor the LEDs. *)
Lemma idle_turns n m :
  dataAvailable m = false ->
  irq_even_enabled m = true -> irq_odd_enabled m = true ->
  exists m',
    steps bus (repeat Turn n) m = (Some tt, m') /\
    dataAvailable m' = false /\
    irq_even_enabled m' = true /\ irq_odd_enabled m' = true /\
    transfers (log m') = transfers (log m) /\
    led_writes (log m') = led_writes (log m) /\
    leds m' = leds m /\
    xfers m' = xfers m.
Proof.
  revert m. induction n as [|n IH]; intros m Havail Heven Hodd.
  - exists m. cbn. repeat split; assumption || reflexivity.
  - cbn [repeat steps step]. unfold bind.
    rewrite loop_iteration_idle by assumption.
    destruct (IH (idled m))
      as (m' & Hrun & Hflag & He & Ho & Htr & Hled & Hleds & Hx);
      [exact Havail | reflexivity | reflexivity |].
    exists m'. rewrite Hrun, Htr, Hled, Hleds, Hx. cbn.
    rewrite transfers_app, led_writes_app. cbn. rewrite !app_nil_r.
    repeat split; assumption || reflexivity.
Qed.

End LoopLemmas.

(** ** Only what the code emits is on the log *)

Section EmitsOnly.

Variable Q : Event -> Prop.

Lemma emits_only_ret {A} (a : A) : emits_only Q (ret a).
Proof. intros m. exists []. rewrite app_nil_r. split; [reflexivity|constructor]. Qed.

Lemma emits_only_get {A} (f : Machine -> A) : emits_only Q (get f).
Proof. intros m. exists []. rewrite app_nil_r. split; [reflexivity|constructor]. Qed.

Lemma emits_only_silent (f : Machine -> Machine) :
  (forall m, log (f m) = log m) -> emits_only Q (modify f).
Proof.
  intros Hf m. exists []. rewrite app_nil_r. split; [apply Hf|constructor].
Qed.

Lemma emits_only_emit (e : Event) (f : Machine -> Machine) :
  Q e -> (forall m, log (f m) = log m) ->
  emits_only Q (modify (fun m => emit e (f m))).
Proof.
  intros He Hf m. exists [e]. split.
  - unfold exec, modify. cbn. rewrite Hf. reflexivity.
  - repeat constructor. exact He.
Qed.

Lemma emits_only_bind {A B} (c : M A) (k : A -> M B) :
  emits_only Q c -> (forall a, emits_only Q (k a)) -> emits_only Q (bind c k).
Proof.
  intros Hc Hk m. destruct (Hc m) as (l1 & Hl1 & HQ1).
  unfold exec, bind in *. destruct (c m) as [[a|] m1]; cbn in Hl1.
  - destruct (Hk a m1) as (l2 & Hl2 & HQ2). unfold exec in Hl2.
    exists (l1 ++ l2). rewrite Hl2, Hl1, app_assoc. split; [reflexivity|].
    apply Forall_app. split; assumption.
  - exists l1. split; assumption.
Qed.

Lemma emits_only_I2CSPM_Transfer bus seq :
  Q (EvTransfer seq) -> emits_only Q (I2CSPM_Transfer bus seq).
Proof.
  intros Hs m. exists [EvTransfer seq]. split; [reflexivity|].
  repeat constructor. exact Hs.
Qed.

Lemma emits_only_I2C_Transfer_poll bus seq :
  Q (EvTransfer seq) -> emits_only Q (I2C_Transfer_poll bus seq).
Proof.
  intros Hs m. exists [EvTransfer seq]. split.
  - unfold exec, I2C_Transfer_poll.
    destruct (resp_status (bus (xfers m))); reflexivity.
  - repeat constructor. exact Hs.
Qed.

End EmitsOnly.

Ltac emits_only_tac :=
  repeat first
    [ apply emits_only_ret
    | apply emits_only_get
    | apply emits_only_I2CSPM_Transfer; reflexivity
    | apply emits_only_I2C_Transfer_poll; reflexivity
    | apply emits_only_silent; intros; reflexivity
    | apply (emits_only_emit _ _ (fun m => m)); [exact I | reflexivity]
    | apply emits_only_bind
    | intros [? ?]
    | intros ? ].

Section Addressing.

Variable bus : Bus.

Lemma writeRegister_to_sensor id data :
  emits_only to_sensor (writeRegister bus id data).
Proof.
  unfold writeRegister. emits_only_tac.
  destruct (negb (is_done _)); apply emits_only_ret.
Qed.

Lemma writeMailbox_to_sensor id data :
  emits_only to_sensor (writeMailbox bus id data).
Proof.
  unfold writeMailbox. emits_only_tac.
  destruct (negb (is_done _)); apply emits_only_ret.
Qed.

Lemma writeNoData_to_sensor id : emits_only to_sensor (writeNoData bus id).
Proof. unfold writeNoData. emits_only_tac. Qed.

Lemma readMailbox_to_sensor id length data :
  emits_only to_sensor (readMailbox bus id length data).
Proof.
  unfold readMailbox. emits_only_tac.
  destruct (negb (is_done _)); apply emits_only_ret.
Qed.

End Addressing.

Section ProgramAddressing.

Variable bus : Bus.

Lemma boot_to_sensor : emits_only to_sensor (boot bus).
Proof.
  unfold boot, Delay, EMU_EnterEM3, enableSensorInterrupts.
  repeat first
    [ apply readMailbox_to_sensor
    | apply writeRegister_to_sensor
    | apply writeNoData_to_sensor
    | apply emits_only_get
    | apply emits_only_silent; intros; reflexivity
    | apply (emits_only_emit _ _ (fun m => m)); [exact I | reflexivity]
    | apply emits_only_bind
    | intros [? ?]
    | intros ? ].
Qed.

Lemma show_level_to_sensor v : emits_only to_sensor (show_level v).
Proof.
  unfold show_level, BSP_LedsSet.
  destruct (v >? 1200); [|destruct (v >? 900)];
    apply emits_only_emit; try exact I; reflexivity.
Qed.

Lemma loop_iteration_to_sensor : emits_only to_sensor (loop_iteration bus).
Proof.
  unfold loop_iteration, EMU_EnterEM3, enableSensorInterrupts,
    disableSensorInterrupts.
  apply emits_only_bind; [|intros _].
  { apply emits_only_bind; [|intros _];
      apply emits_only_silent; reflexivity. }
  apply emits_only_bind; [apply emits_only_get|intros avail].
  apply emits_only_bind.
  - destruct avail; [|apply emits_only_ret].
    repeat first
      [ apply readMailbox_to_sensor
      | apply show_level_to_sensor
      | apply emits_only_get
      | apply emits_only_silent; intros; reflexivity
      | apply emits_only_bind
      | intros [? ?]
      | intros ? ].
  - intros _. apply emits_only_bind; [|intros _].
    + apply emits_only_bind; [|intros _];
        apply emits_only_silent; reflexivity.
    + apply (emits_only_emit _ _ (fun m => m)); [exact I | reflexivity].
Qed.

Lemma step_to_sensor s : emits_only to_sensor (step bus s).
Proof.
  destruct s; cbn [step].
  - apply emits_only_silent. intros m. unfold nvic_even.
    destruct (irq_even_enabled m); reflexivity.
  - apply emits_only_silent. intros m. unfold nvic_odd.
    destruct (irq_odd_enabled m); reflexivity.
  - apply loop_iteration_to_sensor.
Qed.

Lemma steps_to_sensor sched : emits_only to_sensor (steps bus sched).
Proof.
  induction sched as [|s sched IH]; cbn [steps].
  - apply emits_only_ret.
  - apply emits_only_bind; [apply step_to_sensor | intros _; exact IH].
Qed.

Lemma main_to_sensor sched : emits_only to_sensor (main bus sched).
Proof.
  unfold main. apply emits_only_bind;
    [apply boot_to_sensor | intros _; apply steps_to_sensor].
Qed.

End ProgramAddressing.

Lemma to_sensor_transfers l :
  Forall to_sensor l ->
  Forall (fun seq => addr seq = I2C_ADDRESS) (transfers l).
Proof.
  induction 1 as [|e l He _ IH]; [constructor|].
  destruct e; cbn; try exact IH. constructor; assumption.
Qed.

(** ** The classifier *)

Lemma show_level_classify v :
  show_level v = BSP_LedsSet (led_pattern (classify v)).
Proof.
  unfold show_level, classify.
  destruct (v >? 1200); [reflexivity|].
  destruct (v >? 900); reflexivity.
Qed.

(** C1.  On every 16-bit value the classifier follows the fixed
    thresholds: above 1200 it gives Alert, above 900 and up to 1200 Warning,
    up to 900 Good; 900, 901, 1200 and 1201 fall on Good, Warning, Warning
    and Alert; a larger value never gets a lower severity; and the branch of
    the read loop shows exactly the level [classify] gives. *)
Theorem classify_thresholds (v w : Z)
  (Hv : 0 <= v < 65536) (Hw : 0 <= w < 65536) (Hvw : v <= w) :
  (v > 1200 -> classify v = Alert) /\
  (900 < v <= 1200 -> classify v = Warning) /\
  (v <= 900 -> classify v = Good) /\
  classify 900 = Good /\ classify 901 = Warning /\
  classify 1200 = Warning /\ classify 1201 = Alert /\
  (severity (classify v) <= severity (classify w))%nat /\
  show_level v = BSP_LedsSet (led_pattern (classify v)).
Proof.
  repeat split; try reflexivity.
  - intros H. unfold classify.
    destruct (Z.gtb_spec v 1200); [reflexivity|lia].
  - intros H. unfold classify.
    destruct (Z.gtb_spec v 1200); [lia|].
    destruct (Z.gtb_spec v 900); [reflexivity|lia].
  - intros H. unfold classify.
    destruct (Z.gtb_spec v 1200); [lia|].
    destruct (Z.gtb_spec v 900); [lia|reflexivity].
  - unfold classify.
    destruct (Z.gtb_spec v 1200), (Z.gtb_spec w 1200),
      (Z.gtb_spec v 900), (Z.gtb_spec w 900); cbn; lia.
  - apply show_level_classify.
Qed.

Lemma classify_thresholds_witness :
  classify 901 = Warning /\
  (severity (classify 901) <= severity (classify 1201))%nat.
Proof.
  destruct (classify_thresholds 901 1201) as (_ & Hwarn & _ & _ & _ & _ & _ & Hmono & _).
  - lia.
  - lia.
  - lia.
  - split; [apply Hwarn; lia | exact Hmono].
Defined.

(** ** The boot sequence *)

(** C4.  Whatever the bus answers (statuses and bytes alike), once the two
    polled command transfers end the boot sequence has come back having
    issued exactly read(HW_ID,1), read(STATUS,1), command(FW_VERIFY),
    command(APP_START), write(MEASURE_MODE, 1s | INTERRUPT), read(ERR_ID,1),
    read(MEASURE_MODE,1), in that order, with the settle delays of the
    source in between; two buses that differ in what they answer give the
    same events. *)
Theorem boot_order_fixed (bus bus' : Bus) (m : Machine)
  (Hverify : resp_status (bus (S (S (xfers m)))) <> i2cTransferInProgress)
  (Hstart : resp_status (bus (S (S (S (xfers m))))) <> i2cTransferInProgress)
  (Hverify' : resp_status (bus' (S (S (xfers m)))) <> i2cTransferInProgress)
  (Hstart' : resp_status (bus' (S (S (S (xfers m))))) <> i2cTransferInProgress) :
  result (boot bus) m = Some tt /\
  log (exec (boot bus) m) = log m ++ boot_events /\
  transfers (log (exec (boot bus) m)) = transfers (log m) ++ boot_transfers /\
  log (exec (boot bus') m) = log (exec (boot bus) m).
Proof.
  destruct (boot_run bus m Hverify Hstart) as (m1 & Hrun & Hlog & _).
  destruct (boot_run bus' m Hverify' Hstart') as (m2 & Hrun' & Hlog' & _).
  unfold result, exec. rewrite Hrun, Hrun'. cbn [fst snd].
  rewrite Hlog, Hlog', transfers_app.
  repeat split; reflexivity.
Qed.

Lemma boot_order_fixed_witness :
  transfers (log (exec (boot (bus_ok [0x81])) (power_on [0] [0; 0]))) =
  boot_transfers /\
  log (exec (boot (bus_nack_at 1 [0x10])) (power_on [0] [0; 0])) =
  log (exec (boot (bus_ok [0x81])) (power_on [0] [0; 0])).
Proof.
  destruct (boot_order_fixed (bus_ok [0x81]) (bus_nack_at 1 [0x10])
              (power_on [0] [0; 0])) as (_ & _ & Htr & Heq).
  - cbn. discriminate.
  - cbn. discriminate.
  - cbn. discriminate.
  - cbn. discriminate.
  - split; [exact Htr | exact Heq].
Defined.

(** The hypotheses of the boot lemmas are needed: a FW_VERIFY transfer that
    stays in progress keeps the boot sequence in the polling loop, after
    three transfers. *)
Lemma boot_spins_in_verify (bus : Bus) (m : Machine) :
  resp_status (bus (S (S (xfers m)))) = i2cTransferInProgress ->
  result (boot bus) m = None /\
  transfers (log (exec (boot bus) m)) =
    transfers (log m) ++
    [ read_seq CCS811_ADDR_HW_ID 1;
      read_seq CCS811_ADDR_STATUS 1;
      command_seq CCS811_ADDR_FW_VERIFY ].
Proof.
  intros Hbusy.
  assert (Hrun : exists m', boot bus m = (None, m') /\
            log m' = log m ++
              [ EvDelay 1000; EvDelay 10;
                EvTransfer (read_seq CCS811_ADDR_HW_ID 1); EvDelay 10;
                EvTransfer (read_seq CCS811_ADDR_STATUS 1); EvDelay 10;
                EvTransfer (command_seq CCS811_ADDR_FW_VERIFY) ]).
  { eexists. split.
    - unfold boot.
      repeat first
        [ rewrite bind_Delay | rewrite bind_modify | rewrite bind_get
        | rewrite bind_readMailbox ]; cbv beta iota.
      unfold bind at 1. rewrite writeNoData_spin by exact Hbusy.
      reflexivity.
    - cbn. rewrite <- !app_assoc. reflexivity. }
  destruct Hrun as (m' & Hrun & Hlog).
  unfold result, exec. rewrite Hrun. cbn [fst snd].
  rewrite Hlog, transfers_app. split; reflexivity.
Qed.

(** C8.  The one payload byte the boot sequence writes to MEASURE_MODE is
    0x18: drive mode 1 (one second) in the three-bit field at bits 4 to 6,
    the interrupt-enable flag at bit 3 set, the threshold flag at bit 2
    clear; the sum the source writes is the bitwise or of the two
    constants. *)
Theorem measure_mode_byte (bus : Bus) (m : Machine)
  (Hverify : resp_status (bus (S (S (xfers m)))) <> i2cTransferInProgress)
  (Hstart : resp_status (bus (S (S (S (xfers m))))) <> i2cTransferInProgress) :
  let mode := to_uint8 (CCS811_MEASURE_MODE_DRIVE_MODE_1SEC
                        + CCS811_MEASURE_MODE_INTERRUPT) in
  filter (fun seq => match flags seq with
                     | I2C_FLAG_WRITE_WRITE => true
                     | _ => false
                     end)
         (skipn (length (transfers (log m)))
                (transfers (log (exec (boot bus) m)))) =
    [write_seq CCS811_ADDR_MEASURE_MODE [mode] 1] /\
  mode = 0x18 /\
  mode = Z.lor CCS811_MEASURE_MODE_DRIVE_MODE_1SEC
               CCS811_MEASURE_MODE_INTERRUPT /\
  Z.land (Z.shiftr mode CCS811_MEASURE_MODE_DRIVE_MODE_SHIFT) 7 = 1 /\
  Z.shiftl 1 CCS811_MEASURE_MODE_DRIVE_MODE_SHIFT =
    CCS811_MEASURE_MODE_DRIVE_MODE_1SEC /\
  Z.testbit mode 3 = true /\
  Z.testbit mode 2 = false /\
  Z.land mode CCS811_MEASURE_MODE_THRESH = 0 /\
  Z.shiftr mode 7 = 0.
Proof.
  destruct (boot_run bus m Hverify Hstart) as (m1 & Hrun & Hlog & _).
  unfold exec. rewrite Hrun. cbn [snd]. rewrite Hlog, transfers_app.
  rewrite skipn_app, skipn_all, Nat.sub_diag. cbn [app skipn].
  repeat split; reflexivity.
Qed.

Lemma measure_mode_byte_witness :
  filter (fun seq => match flags seq with
                     | I2C_FLAG_WRITE_WRITE => true
                     | _ => false
                     end)
         (transfers (log (exec (boot (bus_ok [0])) (power_on [0] [0; 0])))) =
  [write_seq CCS811_ADDR_MEASURE_MODE [0x18] 1].
Proof.
  destruct (measure_mode_byte (bus_ok [0]) (power_on [0] [0; 0]))
    as (Hw & _).
  - cbn. discriminate.
  - cbn. discriminate.
  - exact Hw.
Defined.

(** ** The device address *)

(** C9, as the source has it.  Every transfer of every run of the program,
    and every transfer of each protocol function taken alone, carries the
    same constant [I2C_ADDRESS]; the constant is the byte 0xB6, which holds
    the seven-bit address 0x5B in its bits 7 to 1 and 0 in bit 0. *)
Theorem device_address_fixed (bus : Bus) (sched : list Step)
  (data algresultData : list Z) :
  Forall (fun seq => addr seq = I2C_ADDRESS)
         (transfers (log (exec (main bus sched)
                               (power_on data algresultData)))) /\
  (forall id payload,
      emits_only to_sensor (writeMailbox bus id payload) /\
      emits_only to_sensor (writeRegister bus id (hd 0 payload)) /\
      emits_only to_sensor (writeNoData bus id) /\
      emits_only to_sensor (readMailbox bus id (hd 0 payload) payload)) /\
  I2C_ADDRESS = 0xB6 /\
  0 <= I2C_ADDRESS < 2 ^ 8 /\
  I2C_ADDRESS = Z.shiftl 0x5B 1 /\
  0 <= Z.shiftr I2C_ADDRESS 1 < 2 ^ 7 /\
  Z.testbit I2C_ADDRESS 0 = false.
Proof.
  split; [|split].
  - destruct (main_to_sensor bus sched (power_on data algresultData))
      as (l & Hl & HQ).
    rewrite Hl. cbn [power_on log app]. apply to_sensor_transfers, HQ.
  - intros id payload. repeat split.
    + apply writeMailbox_to_sensor.
    + apply writeRegister_to_sensor.
    + apply writeNoData_to_sensor.
    + apply readMailbox_to_sensor.
  - repeat split; cbn; try reflexivity; discriminate.
Qed.

(** C9, as stated, fails: the address the first transfer of a run carries
    is 182, which seven bits cannot hold. *)
Lemma device_address_exceeds_7_bits :
  exists seq,
    hd_error (transfers (log (exec (main (bus_ok [0]) [])
                                   (power_on [0] [0; 0])))) = Some seq /\
    addr seq = 182 /\
    ~ (0 <= addr seq < 2 ^ 7).
Proof.
  eexists. split; [reflexivity|]. split; [reflexivity|].
  intros [_ H]. vm_compute in H. discriminate.
Qed.

(** ** Decoding the algorithm result *)

Lemma byte_high_bits (b n : Z) : 0 <= b < 256 -> 8 <= n -> Z.testbit b n = false.
Proof.
  intros Hb Hn. destruct (Z.eq_dec b 0) as [->|Hnz].
  - apply Z.bits_0.
  - apply Z.bits_above_log2; [lia|].
    assert (Z.log2 b < 8) by (apply Z.log2_lt_pow2; lia). lia.
Qed.

Lemma shiftl_lor_byte (hi lo : Z) :
  0 <= hi < 256 -> 0 <= lo < 256 ->
  Z.lor (Z.shiftl hi 8) lo = hi * 256 + lo.
Proof.
  intros Hhi Hlo.
  assert (Hland : Z.land (Z.shiftl hi 8) lo = 0).
  { apply Z.bits_inj'. intros n Hn.
    rewrite Z.land_spec, Z.bits_0.
    destruct (Z.lt_ge_cases n 8).
    - rewrite Z.shiftl_spec_low by assumption. reflexivity.
    - rewrite (byte_high_bits lo n) by assumption. apply andb_false_r. }
  pose proof (Z.add_lor_land (Z.shiftl hi 8) lo) as Hadd.
  rewrite Hland, Z.shiftl_mul_pow2 in Hadd by lia.
  rewrite Z.shiftl_mul_pow2 by lia. change (2 ^ 8) with 256 in *. lia.
Qed.

(** The bytes on the bus are the high byte first. *)
Lemma concat_bytes_big_endian (hi lo : Z) :
  0 <= hi < 256 -> 0 <= lo < 256 ->
  concat_bytes [hi; lo] = hi * 256 + lo.
Proof.
  intros Hhi Hlo. unfold concat_bytes, to_uint32. cbn [nth].
  rewrite shiftl_lor_byte by assumption.
  apply Z.mod_small. change (2 ^ 32) with 4294967296. lia.
Qed.

Lemma store_two_bytes (hi lo : Z) (buffer : list Z) :
  0 <= hi < 256 -> 0 <= lo < 256 -> length buffer = 2%nat ->
  store_bytes [hi; lo] 2 buffer = [hi; lo].
Proof.
  intros Hhi Hlo Hlen.
  destruct buffer as [|b0 [|b1 [|b2 rest]]]; try discriminate.
  cbn. unfold to_uint8. rewrite !Z.mod_small by lia. reflexivity.
Qed.

(** C5.  A turn of the read loop that finds the flag set and whose read of
    ALG_RESULT_DATA succeeds with the bytes [hi; lo] decodes them high byte
    first, as [hi * 256 + lo], and shows the level of that value; bytes
    [0x03; 0x84] (900) give Good and bytes [0x05; 0xDC] (1500) give
    Alert. *)
Theorem read_loop_decodes_big_endian (bus : Bus) (m : Machine) (hi lo : Z)
  (Havail : dataAvailable m = true)
  (Hbuf : length (main_algresultData m) = 2%nat)
  (Hdone : resp_status (bus (xfers m)) = i2cTransferDone)
  (Hrx : resp_rx (bus (xfers m)) = [hi; lo])
  (Hhi : 0 <= hi < 256) (Hlo : 0 <= lo < 256) :
  let m' := exec (loop_iteration bus) m in
  transfers (log m') =
    transfers (log m) ++ [read_seq CCS811_ADDR_ALG_RESULT_DATA 2] /\
  main_algresultData m' = [hi; lo] /\
  concat_bytes (main_algresultData m') = hi * 256 + lo /\
  leds m' = led_pattern (classify (hi * 256 + lo)) /\
  led_writes (log m') =
    led_writes (log m) ++ [led_pattern (classify (hi * 256 + lo))] /\
  (hi = 0x03 -> lo = 0x84 -> leds m' = led_pattern Good) /\
  (hi = 0x05 -> lo = 0xDC -> leds m' = led_pattern Alert).
Proof.
  intros m'. subst m'. unfold exec.
  rewrite loop_iteration_service by assumption. cbn [snd].
  unfold serviced. rewrite Hrx, store_two_bytes by assumption.
  rewrite concat_bytes_big_endian by assumption.
  cbn [log leds main_algresultData emit set_irq_odd set_irq_even set_leds
       set_dataAvailable set_main_algresultData start_transfer].
  rewrite <- !app_assoc, transfers_app, led_writes_app.
  cbn [app transfers led_writes].
  rewrite concat_bytes_big_endian by assumption.
  repeat split; try reflexivity.
  - intros -> ->. reflexivity.
  - intros -> ->. reflexivity.
Qed.

Lemma read_loop_decodes_big_endian_witness :
  leds (exec (loop_iteration (bus_ok [0x03; 0x84]))
             (after_first_event [0x03; 0x84])) = led_pattern Good /\
  leds (exec (loop_iteration (bus_ok [0x05; 0xDC]))
             (after_first_event [0x05; 0xDC])) = led_pattern Alert.
Proof.
  split.
  - refine (proj1 (proj2 (proj2 (proj2 (proj2 (proj2
      (read_loop_decodes_big_endian (bus_ok [0x03; 0x84])
         (after_first_event [0x03; 0x84]) 0x03 0x84 _ _ _ _ _ _))))))
      eq_refl eq_refl);
      solve [ vm_compute; reflexivity | lia ].
  - refine (proj2 (proj2 (proj2 (proj2 (proj2 (proj2
      (read_loop_decodes_big_endian (bus_ok [0x05; 0xDC])
         (after_first_event [0x05; 0xDC]) 0x05 0xDC _ _ _ _ _ _))))))
      eq_refl eq_refl);
      solve [ vm_compute; reflexivity | lia ].
Defined.

(** ** The flag and the read attempt *)

(** C10.  A turn that finds the flag set issues its one read of
    ALG_RESULT_DATA and leaves the flag clear whatever status that read
    ends with, so a failed read uses up the event; the turns that follow,
    as long as no handler runs, find the flag clear and neither read nor
    write the LEDs; once a handler has run the flag is set again and the
    next turn reads again. *)
Theorem flag_cleared_after_read_attempt (bus : Bus) (m : Machine) (n : nat)
  (Havail : dataAvailable m = true) :
  let m1 := exec (loop_iteration bus) m in
  let m2 := exec (steps bus (repeat Turn n)) m1 in
  result (loop_iteration bus) m = Some tt /\
  transfers (log m1) =
    transfers (log m) ++ [read_seq CCS811_ADDR_ALG_RESULT_DATA 2] /\
  dataAvailable m1 = false /\
  result (steps bus (repeat Turn n)) m1 = Some tt /\
  dataAvailable m2 = false /\
  transfers (log m2) = transfers (log m1) /\
  led_writes (log m2) = led_writes (log m1) /\
  dataAvailable (nvic_even m2) = true /\
  dataAvailable (nvic_odd m2) = true /\
  transfers (log (exec (loop_iteration bus) (nvic_even m2))) =
    transfers (log m2) ++ [read_seq CCS811_ADDR_ALG_RESULT_DATA 2].
Proof.
  intros m1 m2. subst m1 m2. unfold result, exec.
  rewrite loop_iteration_service by assumption. cbn [fst snd].
  destruct (idle_turns bus n (serviced bus m))
    as (m2 & Hrun & Hflag & He & Ho & Htr & Hled & _);
    [reflexivity | reflexivity | reflexivity |].
  rewrite Hrun. cbn [fst snd].
  assert (Hset : dataAvailable (nvic_even m2) = true).
  { unfold nvic_even. rewrite He. reflexivity. }
  rewrite loop_iteration_service by exact Hset.
  unfold nvic_even, nvic_odd. rewrite He, Ho.
  repeat split; try assumption; try reflexivity.
  - unfold serviced. cbn. rewrite <- !app_assoc, transfers_app. reflexivity.
  - unfold serviced. cbn. rewrite <- !app_assoc, transfers_app. reflexivity.
Qed.

Lemma flag_cleared_after_read_attempt_witness :
  dataAvailable (exec (loop_iteration (bus_nack_at 0 []))
                      (event_pending [0; 0])) = false /\
  transfers (log (exec (steps (bus_nack_at 0 []) (repeat Turn 3))
                       (exec (loop_iteration (bus_nack_at 0 []))
                             (event_pending [0; 0])))) =
  transfers (log (exec (loop_iteration (bus_nack_at 0 []))
                       (event_pending [0; 0]))).
Proof.
  destruct (flag_cleared_after_read_attempt (bus_nack_at 0 [])
              (event_pending [0; 0]) 3 eq_refl)
    as (_ & _ & Hclear & _ & _ & Hquiet & _).
  split; [exact Hclear | exact Hquiet].
Defined.

(** ** Where the code leaves the stated behaviour *)

(** A turn whose read fails still writes the LEDs, from whatever the buffer
    holds once the transfer is over. *)
Lemma failed_read_shows_buffer (bus : Bus) (m : Machine) :
  dataAvailable m = true ->
  is_done (resp_status (bus (xfers m))) = false ->
  let held := store_bytes (resp_rx (bus (xfers m))) 2 (main_algresultData m) in
  let m' := exec (loop_iteration bus) m in
  result (readMailbox bus CCS811_ADDR_ALG_RESULT_DATA 2
                      (main_algresultData m)) m = Some (1, held) /\
  leds m' = led_pattern (classify (concat_bytes held)) /\
  led_writes (log m') =
    led_writes (log m) ++ [led_pattern (classify (concat_bytes held))].
Proof.
  intros Havail Hfail held m'. subst held m'. unfold result, exec.
  rewrite readMailbox_run, loop_iteration_service by assumption.
  unfold status_byte. rewrite Hfail. cbn [fst snd].
  unfold serviced. cbn. rewrite <- !app_assoc, led_writes_app.
  repeat split; reflexivity.
Qed.

(** C2, at the failing input.  Power-on with the bytes 0x05, 0xDC lying in
    the uninitialised buffer; the boot sequence succeeds; the first
    data-ready interrupt arrives; the read of that turn is not acknowledged
    and delivers nothing.  [readMailbox] reports 1, the buffer still holds
    what it held, and the turn nevertheless shows pattern 3 where the LEDs
    had never been written. *)
Theorem failed_read_still_classified :
  let bus := bus_nack_at 7 [0] in
  let before := exec (main bus [FireEven]) (power_on [0] [0x05; 0xDC]) in
  let after := exec (loop_iteration bus) before in
  dataAvailable before = true /\
  result (readMailbox bus CCS811_ADDR_ALG_RESULT_DATA 2
                      (main_algresultData before)) before =
    Some (1, [0x05; 0xDC]) /\
  leds before = 0 /\ led_writes (log before) = [] /\
  leds after = led_pattern Alert /\ led_writes (log after) = [3].
Proof. vm_compute. repeat split; reflexivity. Qed.

(** [writeNoData] hands nothing back: whenever it returns, it returns the
    same thing. *)
Lemma writeNoData_result_blind (bus bus' : Bus) (id : Z) (m : Machine) :
  resp_status (bus (xfers m)) <> i2cTransferInProgress ->
  resp_status (bus' (xfers m)) <> i2cTransferInProgress ->
  result (writeNoData bus id) m = result (writeNoData bus' id) m.
Proof.
  intros H H'. unfold result.
  rewrite !writeNoData_run by assumption. reflexivity.
Qed.

(** C3, at the failing input.  The fourth transfer of the boot sequence,
    the APP_START command, is not acknowledged.  [writeNoData] returns what
    it returns on success, the boot sequence runs to its end, and the write
    of the measurement mode follows the failed command on the bus; the
    sibling [writeRegister] reports 1 for the same failure. *)
Theorem app_start_failure_not_surfaced :
  let bus := bus_nack_at 3 [0] in
  let m := power_on [0] [0; 0] in
  let at_app_start := mkMachine false false false 0 0 [0] [0; 0] 3 [] in
  resp_status (bus 3%nat) = i2cTransferNack /\
  result (writeNoData bus CCS811_ADDR_APP_START) at_app_start =
    result (writeNoData (bus_ok [0]) CCS811_ADDR_APP_START) at_app_start /\
  result (writeRegister bus CCS811_ADDR_APP_START 0) at_app_start = Some 1 /\
  result (boot bus) m = Some tt /\
  transfers (log (exec (boot bus) m)) =
    [ read_seq CCS811_ADDR_HW_ID 1;
      read_seq CCS811_ADDR_STATUS 1;
      command_seq CCS811_ADDR_FW_VERIFY;
      command_seq CCS811_ADDR_APP_START;
      write_seq CCS811_ADDR_MEASURE_MODE [0x18] 1;
      read_seq CCS811_ADDR_ERR_ID 1;
      read_seq CCS811_ADDR_MEASURE_MODE 1 ].
Proof. vm_compute. repeat split; reflexivity. Qed.

(** C6, at the failing input.  Whatever payload [writeMailbox] is given,
    the length it writes into the transfer descriptor is the size of a
    pointer, four; handed the one mode byte for the one-byte MEASURE_MODE
    register it announces four bytes.  Only for a payload that happens to
    be as long as a pointer, such as [treshData], do the two agree. *)
Theorem writeMailbox_length_from_pointer (bus : Bus) (id : Z)
  (data : list Z) (m : Machine) :
  transfers (log (exec (writeMailbox bus id data) m)) =
    transfers (log m) ++ [write_seq id data sizeof_uint8_ptr] /\
  map buf_len (buf (write_seq id data sizeof_uint8_ptr)) = [1; 4] /\
  transfers (log (exec (writeMailbox bus CCS811_ADDR_MEASURE_MODE [0x18]) m)) =
    transfers (log m) ++
    [ {| addr := I2C_ADDRESS; flags := I2C_FLAG_WRITE_WRITE;
         buf := [BufTx [0x01] 1; BufTx [0x18] 4] |} ] /\
  Z.of_nat (length [0x18]) <> 4 /\
  Z.of_nat (length treshData) = sizeof_uint8_ptr.
Proof.
  unfold exec. rewrite !writeMailbox_run. cbn [snd start_transfer log].
  rewrite !transfers_app. repeat split; try reflexivity.
  cbn. discriminate.
Qed.

(** * Further properties of the code *)

(** ** What the protocol functions hand back *)

(** X1.  [writeRegister], [writeMailbox] and [readMailbox] always come
    back, having started exactly one transfer, with a status byte that is 0
    when the transfer ended with [i2cTransferDone] and 1 for every other
    outcome, a transfer the driver gave up on while still in progress
    included. *)
Theorem protocol_status_byte (bus : Bus) (id data length : Z)
  (payload buffer : list Z) (m : Machine) :
  exists st buffer',
    result (writeRegister bus id data) m = Some st /\
    result (writeMailbox bus id payload) m = Some st /\
    result (readMailbox bus id length buffer) m = Some (st, buffer') /\
    (st = 0 <-> resp_status (bus (xfers m)) = i2cTransferDone) /\
    (st = 1 <-> resp_status (bus (xfers m)) <> i2cTransferDone) /\
    xfers (exec (writeRegister bus id data) m) = S (xfers m) /\
    xfers (exec (writeMailbox bus id payload) m) = S (xfers m) /\
    xfers (exec (readMailbox bus id length buffer) m) = S (xfers m).
Proof.
  unfold result, exec.
  rewrite writeRegister_run, writeMailbox_run, readMailbox_run.
  do 2 eexists. cbn [fst snd start_transfer xfers].
  repeat split; try reflexivity; unfold status_byte;
    destruct (resp_status (bus (xfers m))); cbn;
    intros; congruence || discriminate.
Qed.

(** X2.  [writeNoData] starts its transfer in every case; it comes back
    exactly when the transfer leaves the in-progress state, and then with
    nothing that tells how the transfer ended. *)
Theorem writeNoData_returns_iff (bus : Bus) (id : Z) (m : Machine) :
  (result (writeNoData bus id) m = Some tt <->
   resp_status (bus (xfers m)) <> i2cTransferInProgress) /\
  (result (writeNoData bus id) m = None <->
   resp_status (bus (xfers m)) = i2cTransferInProgress) /\
  exec (writeNoData bus id) m = start_transfer (command_seq id) m.
Proof.
  unfold result, exec.
  destruct (resp_status (bus (xfers m))) eqn:Hst;
    try (rewrite writeNoData_run by (rewrite Hst; discriminate);
         cbn [fst snd];
         repeat split; intros; try reflexivity; try congruence;
         discriminate).
  rewrite writeNoData_spin by exact Hst. cbn [fst snd].
  repeat split; intros; try reflexivity; try congruence; discriminate.
Qed.

(** X3.  The boot sequence comes back exactly when both polled commands
    end.  When FW_VERIFY stays in progress it stops after three transfers;
    when FW_VERIFY ends and APP_START stays in progress it stops after
    four, and the measurement mode is never written. *)
Theorem boot_returns_iff (bus : Bus) (m : Machine) :
  (result (boot bus) m = Some tt <->
   resp_status (bus (S (S (xfers m)))) <> i2cTransferInProgress /\
   resp_status (bus (S (S (S (xfers m))))) <> i2cTransferInProgress) /\
  (resp_status (bus (S (S (xfers m)))) = i2cTransferInProgress ->
   transfers (log (exec (boot bus) m)) =
     transfers (log m) ++ firstn 3 boot_transfers) /\
  (resp_status (bus (S (S (xfers m)))) <> i2cTransferInProgress ->
   resp_status (bus (S (S (S (xfers m))))) = i2cTransferInProgress ->
   result (boot bus) m = None /\
   transfers (log (exec (boot bus) m)) =
     transfers (log m) ++ firstn 4 boot_transfers).
Proof.
  assert (Hfour :
    resp_status (bus (S (S (xfers m)))) <> i2cTransferInProgress ->
    resp_status (bus (S (S (S (xfers m))))) = i2cTransferInProgress ->
    exists m', boot bus m = (None, m') /\
      log m' = log m ++ firstn 9 boot_events).
  { intros H2 H3. eexists. split.
    - unfold boot.
      repeat first
        [ rewrite bind_Delay | rewrite bind_modify | rewrite bind_get
        | rewrite bind_readMailbox
        | rewrite bind_writeNoData by assumption ]; cbv beta iota.
      unfold bind at 1. rewrite writeNoData_spin by exact H3. reflexivity.
    - cbn. rewrite <- !app_assoc. reflexivity. }
  split; [|split].
  - split.
    + intros Hret.
      destruct (resp_status (bus (S (S (xfers m))))) eqn:H2;
        try (destruct (resp_status (bus (S (S (S (xfers m)))))) eqn:H3;
             try (split; discriminate);
             destruct Hfour as (m' & Hrun & _);
               [discriminate | reflexivity |];
             unfold result in Hret; rewrite Hrun in Hret; discriminate).
      destruct (boot_spins_in_verify bus m H2) as [Hnone _].
      congruence.
    + intros [H2 H3].
      destruct (boot_run bus m H2 H3) as (m' & Hrun & _).
      unfold result. rewrite Hrun. reflexivity.
  - intros H2. apply (boot_spins_in_verify bus m H2).
  - intros H2 H3. destruct (Hfour H2 H3) as (m' & Hrun & Hlog).
    unfold result, exec. rewrite Hrun. cbn [fst snd].
    rewrite Hlog, transfers_app. split; reflexivity.
Qed.

(** ** The interrupt handlers *)

(** X4.  Either handler acknowledges every GPIO flag that is up and sets
    the data-ready flag, and does nothing else: no bus transfer, no LED
    write, no change to the interrupt enables or to the buffers of [main].
    The two handlers act alike, and running one a second time changes
    nothing more. *)
Theorem handlers_only_flag (m : Machine) :
  let m' := GPIO_EVEN_IRQHandler m in
  dataAvailable m' = true /\
  gpio_if m' = 0 /\
  log m' = log m /\ xfers m' = xfers m /\ leds m' = leds m /\
  irq_even_enabled m' = irq_even_enabled m /\
  irq_odd_enabled m' = irq_odd_enabled m /\
  main_data m' = main_data m /\
  main_algresultData m' = main_algresultData m /\
  GPIO_ODD_IRQHandler m = m' /\
  GPIO_EVEN_IRQHandler m' = m' /\
  GPIO_ODD_IRQHandler m' = m'.
Proof.
  assert (Hclr : forall x, Z.land x (Z.lnot x) = 0).
  { intros x. apply Z.bits_inj'. intros n Hn.
    rewrite Z.land_spec, Z.lnot_spec, Z.bits_0 by assumption.
    apply andb_negb_r. }
  unfold GPIO_EVEN_IRQHandler, GPIO_ODD_IRQHandler, set_gpio_if,
    set_dataAvailable. cbn. rewrite !Hclr. cbn.
  repeat split; reflexivity.
Qed.

(** ** Decoding, both ways *)

(** X5.  The two-byte decoding loses nothing: for bytes [hi] and [lo] the
    decoded value is below 65536 and gives [hi] and [lo] back as its
    quotient and remainder by 256; and every 16-bit value is the decoding
    of its own two bytes, high byte first. *)
Theorem concat_bytes_round_trip (hi lo v : Z)
  (Hhi : 0 <= hi < 256) (Hlo : 0 <= lo < 256) (Hv : 0 <= v < 65536) :
  0 <= concat_bytes [hi; lo] < 65536 /\
  concat_bytes [hi; lo] / 256 = hi /\
  concat_bytes [hi; lo] mod 256 = lo /\
  concat_bytes [v / 256; v mod 256] = v.
Proof.
  rewrite concat_bytes_big_endian by assumption.
  assert (Hq : 0 <= v / 256 < 256).
  { split; [apply Z.div_pos; lia | apply Z.div_lt_upper_bound; lia]. }
  assert (Hr : 0 <= v mod 256 < 256) by (apply Z.mod_pos_bound; lia).
  rewrite concat_bytes_big_endian by assumption.
  repeat split; try lia.
  - rewrite Z.div_add_l by lia. rewrite Z.div_small by lia. lia.
  - rewrite Z.add_comm, Z.mod_add by lia. apply Z.mod_small; lia.
  - pose proof (Z.div_mod v 256). lia.
Qed.

Lemma concat_bytes_round_trip_witness :
  concat_bytes [0x05; 0xDC] / 256 = 0x05 /\
  concat_bytes [1500 / 256; 1500 mod 256] = 1500.
Proof.
  destruct (concat_bytes_round_trip 0x05 0xDC 1500) as (_ & Hq & _ & Hv);
    [lia | lia | lia |].
  split; [exact Hq | exact Hv].
Defined.

(** ** The busy-wait of [Delay] *)

Lemma to_uint32_add_l (a b : Z) : to_uint32 (to_uint32 a + b) = to_uint32 (a + b).
Proof. unfold to_uint32. apply Zplus_mod_idemp_l. Qed.

Lemma to_uint32_small (a : Z) : 0 <= a < 2 ^ 32 -> to_uint32 a = a.
Proof. intros H. unfold to_uint32. apply Z.mod_small. exact H. Qed.

Lemma to_uint32_le (a : Z) : 0 <= a -> to_uint32 a <= a.
Proof. intros H. unfold to_uint32. apply Z.mod_le; [exact H|]. now vm_compute. Qed.

(** The counter after [n] ticks. *)
Lemma ticks_taken (n : nat) (c : Z) :
  Nat.iter n SysTick_Handler (to_uint32 c) = to_uint32 (c + Z.of_nat n).
Proof.
  induction n as [|n IH].
  - cbn. rewrite Z.add_0_r. reflexivity.
  - change (Nat.iter (S n) SysTick_Handler (to_uint32 c))
      with (SysTick_Handler (Nat.iter n SysTick_Handler (to_uint32 c))).
    rewrite IH. unfold SysTick_Handler.
    rewrite to_uint32_add_l. f_equal. lia.
Qed.

(** What the loop condition compares with [dlyTicks]: the ticks taken
    since entry, modulo 2^32, wherever the counter started. *)
Lemma ticks_since_entry (curTicks e : Z) :
  to_uint32 (to_uint32 (curTicks + e) - curTicks) = to_uint32 e.
Proof.
  unfold to_uint32. rewrite Zminus_mod_idemp_l. f_equal. lia.
Qed.

Lemma Delay_loop_never_early (curTicks dlyTicks : Z) (arrivals : list nat) :
  forall (e : nat) (msTicks' : Z) (e' : nat),
    Delay_loop curTicks dlyTicks arrivals
               (to_uint32 (curTicks + Z.of_nat e)) e = Some (msTicks', e') ->
    dlyTicks <= Z.of_nat e' /\
    msTicks' = to_uint32 (curTicks + Z.of_nat e') /\
    (e <= e')%nat.
Proof.
  induction arrivals as [|n rest IH]; intros e ms' e' Hrun; cbn in Hrun;
    rewrite ticks_since_entry in Hrun;
    destruct (Z.ltb_spec (to_uint32 (Z.of_nat e)) dlyTicks) as [Hlt|Hge].
  - discriminate.
  - injection Hrun as <- <-.
    pose proof (to_uint32_le (Z.of_nat e)). repeat split; lia.
  - rewrite ticks_taken in Hrun.
    replace (curTicks + Z.of_nat e + Z.of_nat n)
      with (curTicks + Z.of_nat (e + n)) in Hrun by lia.
    destruct (IH _ _ _ Hrun) as (H1 & H2 & H3). repeat split; try assumption.
    lia.
  - injection Hrun as <- <-.
    pose proof (to_uint32_le (Z.of_nat e)). repeat split; lia.
Qed.

Lemma Delay_loop_exact (curTicks dlyTicks : Z) :
  0 <= dlyTicks < 2 ^ 32 ->
  forall (n e : nat),
    Z.of_nat e <= dlyTicks ->
    dlyTicks - Z.of_nat e <= Z.of_nat n ->
    Delay_loop curTicks dlyTicks (repeat 1%nat n)
               (to_uint32 (curTicks + Z.of_nat e)) e =
    Some (to_uint32 (curTicks + dlyTicks), Z.to_nat dlyTicks).
Proof.
  intros Hd. induction n as [|n IH]; intros e He Hn; cbn [repeat Delay_loop];
    rewrite ticks_since_entry, to_uint32_small by lia;
    destruct (Z.ltb_spec (Z.of_nat e) dlyTicks) as [Hlt|Hge]; try lia.
  - replace dlyTicks with (Z.of_nat e) by lia.
    rewrite Nat2Z.id. reflexivity.
  - rewrite ticks_taken.
    replace (curTicks + Z.of_nat e + Z.of_nat 1)
      with (curTicks + Z.of_nat (e + 1)) by lia.
    apply IH; lia.
  - replace dlyTicks with (Z.of_nat e) by lia.
    rewrite Nat2Z.id. reflexivity.
Qed.

(** X6.  [Delay] never comes back early: however the tick interrupts fall
    between two looks at the counter, and wherever the counter stood on
    entry (just below its wrap-around included), when the loop is left at
    least [dlyTicks] ticks have been taken, and the counter stands at its
    entry value plus the ticks taken, modulo 2^32. *)
Theorem Delay_never_early (dlyTicks msTicks : Z) (arrivals : list nat)
  (msTicks' : Z) (elapsed : nat)
  (Hd : 0 <= dlyTicks < 2 ^ 32) (Hm : 0 <= msTicks < 2 ^ 32)
  (Hrun : Delay_wait dlyTicks arrivals msTicks = Some (msTicks', elapsed)) :
  dlyTicks <= Z.of_nat elapsed /\
  msTicks' = to_uint32 (msTicks + Z.of_nat elapsed).
Proof.
  unfold Delay_wait in Hrun. rewrite (to_uint32_small dlyTicks) in Hrun by lia.
  rewrite <- (to_uint32_small msTicks) in Hrun at 2 by lia.
  replace msTicks with (msTicks + Z.of_nat 0) in Hrun at 2 by lia.
  destruct (Delay_loop_never_early _ _ _ _ _ _ Hrun) as (H1 & H2 & _).
  split; assumption.
Qed.

Lemma Delay_never_early_witness :
  100 <= Z.of_nat 101 /\
  3 = to_uint32 (4294967198 + Z.of_nat 101).
Proof.
  apply (Delay_never_early 100 4294967198 [40; 0; 59; 2; 7]%nat 3 101);
    [ vm_compute; split; [discriminate | reflexivity]
    | vm_compute; split; [discriminate | reflexivity]
    | vm_compute; reflexivity ].
Defined.

(** X7.  When the loop sees every tick (at most one between two looks at
    the counter, here exactly one), [Delay] comes back after exactly
    [dlyTicks] ticks, with the counter at its entry value plus [dlyTicks]
    modulo 2^32; [Delay(0)] takes no tick at all. *)
Theorem Delay_exact (dlyTicks msTicks : Z) (n : nat)
  (Hd : 0 <= dlyTicks < 2 ^ 32) (Hm : 0 <= msTicks < 2 ^ 32)
  (Hn : dlyTicks <= Z.of_nat n) :
  Delay_wait dlyTicks (repeat 1%nat n) msTicks =
    Some (to_uint32 (msTicks + dlyTicks), Z.to_nat dlyTicks) /\
  Delay_wait 0 [] msTicks = Some (msTicks, 0%nat).
Proof.
  split.
  - unfold Delay_wait. rewrite (to_uint32_small dlyTicks) by lia.
    rewrite <- (to_uint32_small msTicks) at 2 by lia.
    replace msTicks with (msTicks + Z.of_nat 0) at 2 by lia.
    apply Delay_loop_exact; [assumption | lia | lia].
  - unfold Delay_wait. cbn [Delay_loop].
    rewrite Z.sub_diag. reflexivity.
Qed.

Lemma Delay_exact_witness :
  Delay_wait 10 (repeat 1%nat 12) 4294967290 = Some (4, 10%nat).
Proof.
  apply (Delay_exact 10 4294967290 12);
    [ vm_compute; split; [discriminate | reflexivity]
    | vm_compute; split; [discriminate | reflexivity]
    | vm_compute; discriminate ].
Defined.

(** ** Runs of the loop *)

Section RunShape.

Variable bus : Bus.

Lemma steps_shape (sched : list Step) :
  forall m,
    irq_even_enabled m = true -> irq_odd_enabled m = true ->
    exists m' k,
      steps bus sched m = (Some tt, m') /\
      transfers (log m') =
        transfers (log m) ++ repeat (read_seq CCS811_ADDR_ALG_RESULT_DATA 2) k /\
      length (led_writes (log m')) = (length (led_writes (log m)) + k)%nat /\
      (k <= turns sched)%nat /\
      (k + pending m' <= fires sched + pending m)%nat /\
      irq_even_enabled m' = true /\ irq_odd_enabled m' = true.
Proof.
  induction sched as [|s sched IH]; intros m He Ho.
  - exists m, 0%nat. cbn. rewrite app_nil_r.
    repeat split; try reflexivity; try assumption; lia.
  - destruct s; cbn [steps step].
    + rewrite bind_modify. unfold nvic_even. rewrite He.
      destruct (IH (GPIO_EVEN_IRQHandler m) He Ho)
        as (m' & k & Hrun & Htr & Hled & Hk & Hp & He' & Ho').
      exists m', k. unfold turns, fires in *. cbn in *.
      repeat split; try assumption. unfold pending at 2.
      destruct (dataAvailable m); lia.
    + rewrite bind_modify. unfold nvic_odd. rewrite Ho.
      destruct (IH (GPIO_ODD_IRQHandler m) He Ho)
        as (m' & k & Hrun & Htr & Hled & Hk & Hp & He' & Ho').
      exists m', k. unfold turns, fires in *. cbn in *.
      repeat split; try assumption. unfold pending at 2.
      destruct (dataAvailable m); lia.
    + unfold bind at 1. destruct (dataAvailable m) eqn:Havail.
      * rewrite loop_iteration_service by assumption.
        destruct (IH (serviced bus m) eq_refl eq_refl)
          as (m' & k & Hrun & Htr & Hled & Hk & Hp & He' & Ho').
        exists m', (S k). unfold turns, fires, pending in *.
        rewrite Havail. cbn in Htr, Hled, Hp |- *.
        rewrite <- !app_assoc, transfers_app in Htr.
        rewrite <- !app_assoc, led_writes_app in Hled.
        cbn in Htr, Hled. rewrite length_app in Hled. cbn in Hled.
        rewrite Htr, <- app_assoc.
        repeat split; try assumption; try reflexivity; lia.
      * rewrite loop_iteration_idle by assumption.
        destruct (IH (idled m) eq_refl eq_refl)
          as (m' & k & Hrun & Htr & Hled & Hk & Hp & He' & Ho').
        exists m', k. unfold turns, fires, pending in *.
        rewrite Havail. cbn in Htr, Hled, Hp |- *.
        rewrite Havail in Hp.
        rewrite transfers_app in Htr. rewrite led_writes_app in Hled.
        cbn in Htr, Hled. rewrite !app_nil_r in *.
        repeat split; try assumption; lia.
Qed.

(** A burst of handler runs followed by one turn. *)
Lemma burst_then_turn (burst : list Step) :
  forall m,
    forallb (fun s => negb (is_turn s)) burst = true ->
    irq_even_enabled m = true -> irq_odd_enabled m = true ->
    dataAvailable m = true \/ burst <> [] ->
    exists m',
      steps bus (burst ++ [Turn]) m = (Some tt, m') /\
      transfers (log m') =
        transfers (log m) ++ [read_seq CCS811_ADDR_ALG_RESULT_DATA 2] /\
      length (led_writes (log m')) = S (length (led_writes (log m))) /\
      dataAvailable m' = false.
Proof.
  induction burst as [|s burst IH]; intros m Hall He Ho Hpend.
  - destruct Hpend as [Havail|Hne]; [|congruence].
    cbn [app steps step]. unfold bind.
    rewrite loop_iteration_service by assumption.
    eexists. split; [reflexivity|]. unfold serviced. cbn.
    rewrite <- !app_assoc, transfers_app, led_writes_app. cbn.
    rewrite length_app. cbn. repeat split; try reflexivity. lia.
  - cbn [forallb] in Hall. apply andb_prop in Hall as [Hs Hall].
    destruct s; try discriminate; cbn [app steps step];
      rewrite bind_modify.
    + unfold nvic_even. rewrite He.
      apply (IH (GPIO_EVEN_IRQHandler m) Hall He Ho). left. reflexivity.
    + unfold nvic_odd. rewrite Ho.
      apply (IH (GPIO_ODD_IRQHandler m) Hall He Ho). left. reflexivity.
Qed.

End RunShape.

(** X8.  Once the boot sequence has come back, the program only ever reads:
    whatever the bus answers and however handler runs and turns of the loop
    alternate, the transfers of a run are those of the boot sequence
    followed by two-byte reads of ALG_RESULT_DATA, one per LED write; there
    are no more reads than turns taken, and no more reads (plus the event
    still pending at the end) than handler runs; the run ends with both
    sensor interrupt lines enabled. *)
Theorem run_reads_once_per_event (bus : Bus) (sched : list Step)
  (data algresultData : list Z)
  (Hverify : resp_status (bus 2%nat) <> i2cTransferInProgress)
  (Hstart : resp_status (bus 3%nat) <> i2cTransferInProgress) :
  let m := exec (main bus sched) (power_on data algresultData) in
  exists k,
    result (main bus sched) (power_on data algresultData) = Some tt /\
    transfers (log m) =
      boot_transfers ++ repeat (read_seq CCS811_ADDR_ALG_RESULT_DATA 2) k /\
    length (led_writes (log m)) = k /\
    (k <= turns sched)%nat /\
    (k + pending m <= fires sched)%nat /\
    irq_even_enabled m = true /\ irq_odd_enabled m = true.
Proof.
  destruct (boot_run bus (power_on data algresultData) Hverify Hstart)
    as (m1 & Hboot & Hlog & Hflag & _ & _ & He & Ho & _).
  destruct (steps_shape bus sched m1 He Ho)
    as (m' & k & Hrun & Htr & Hled & Hk & Hp & He' & Ho').
  exists k. unfold result, exec, main, bind. rewrite Hboot, Hrun.
  cbn [fst snd]. rewrite Htr, Hled, Hlog.
  unfold pending in Hp at 2. rewrite Hflag in Hp. cbn in Hp |- *.
  repeat split; try assumption; lia.
Qed.

Lemma run_reads_once_per_event_witness :
  exists k,
    transfers (log (exec (main (bus_nack_at 8 [1; 2])
                           [FireEven; FireOdd; Turn; Turn; FireOdd; Turn; Turn])
                         (power_on [0] [0; 0]))) =
      boot_transfers ++ repeat (read_seq CCS811_ADDR_ALG_RESULT_DATA 2) k /\
    (k <= 4)%nat /\ (k <= 3)%nat.
Proof.
  destruct (run_reads_once_per_event (bus_nack_at 8 [1; 2])
              [FireEven; FireOdd; Turn; Turn; FireOdd; Turn; Turn]
              [0] [0; 0])
    as (k & _ & Htr & _ & Hk & Hp & _).
  - cbn. discriminate.
  - cbn. discriminate.
  - exists k. split; [exact Htr|]. split; [exact Hk|].
    cbn in Hp. lia.
Defined.

(** X9.  Events are coalesced: after any burst of one or more handler runs
    (even or odd, in any order) the next turn of the loop issues exactly
    one read of ALG_RESULT_DATA and one LED write, and leaves the flag
    clear. *)
Theorem events_coalesce (bus : Bus) (burst : list Step) (m : Machine)
  (Hne : burst <> [])
  (Hfire : forallb (fun s => negb (is_turn s)) burst = true)
  (He : irq_even_enabled m = true) (Ho : irq_odd_enabled m = true) :
  let m' := exec (steps bus (burst ++ [Turn])) m in
  transfers (log m') =
    transfers (log m) ++ [read_seq CCS811_ADDR_ALG_RESULT_DATA 2] /\
  length (led_writes (log m')) = S (length (led_writes (log m))) /\
  dataAvailable m' = false.
Proof.
  destruct (burst_then_turn bus burst m Hfire He Ho (or_intror Hne))
    as (m' & Hrun & Htr & Hled & Hflag).
  unfold exec. rewrite Hrun. cbn [snd]. repeat split; assumption.
Qed.

Lemma events_coalesce_witness :
  transfers (log (exec (steps (bus_ok [0x03; 0x84])
                              ([FireEven; FireOdd; FireEven] ++ [Turn]))
                       (after_first_event [0x03; 0x84]))) =
  transfers (log (after_first_event [0x03; 0x84])) ++
  [read_seq CCS811_ADDR_ALG_RESULT_DATA 2].
Proof.
  refine (proj1 (events_coalesce (bus_ok [0x03; 0x84])
                   [FireEven; FireOdd; FireEven]
                   (after_first_event [0x03; 0x84]) _ _ _ _));
    solve [ discriminate | vm_compute; reflexivity ].
Defined.

(** ** What is shown on the LEDs *)

Section QuietBoot.

Variable bus : Bus.
Variable Q : Event -> Prop.
Hypothesis Q_not_led : forall e, not_led e -> Q e.

Lemma boot_emits_no_led : emits_only Q (boot bus).
Proof.
  unfold boot, Delay, EMU_EnterEM3, enableSensorInterrupts, readMailbox,
    writeRegister, writeNoData.
  repeat first
    [ apply emits_only_get
    | apply emits_only_ret
    | apply emits_only_I2CSPM_Transfer; apply Q_not_led; exact I
    | apply emits_only_I2C_Transfer_poll; apply Q_not_led; exact I
    | apply emits_only_silent; intros; reflexivity
    | apply (emits_only_emit _ _ (fun m => m));
        [apply Q_not_led; exact I | reflexivity]
    | apply emits_only_bind
    | match goal with
      | |- emits_only _ (if ?b then _ else _) => destruct b
      end
    | intros [? ?]
    | intros ? ].
Qed.

Hypothesis Q_patterns : forall v, v = 0 \/ v = 1 \/ v = 3 -> Q (EvLeds v).

Lemma show_level_in_range v : emits_only Q (show_level v).
Proof.
  unfold show_level, BSP_LedsSet.
  destruct (v >? 1200); [|destruct (v >? 900)];
    apply emits_only_emit; try reflexivity; apply Q_patterns; auto.
Qed.

Lemma loop_iteration_in_range : emits_only Q (loop_iteration bus).
Proof.
  unfold loop_iteration, EMU_EnterEM3, enableSensorInterrupts,
    disableSensorInterrupts, readMailbox.
  repeat first
    [ apply show_level_in_range
    | apply emits_only_get
    | apply emits_only_ret
    | apply emits_only_I2CSPM_Transfer; apply Q_not_led; exact I
    | apply emits_only_silent; intros; reflexivity
    | apply (emits_only_emit _ _ (fun m => m));
        [apply Q_not_led; exact I | reflexivity]
    | apply emits_only_bind
    | match goal with
      | |- emits_only _ (if ?b then _ else _) => destruct b
      end
    | intros [? ?]
    | intros ? ].
Qed.

Lemma steps_in_range sched : emits_only Q (steps bus sched).
Proof.
  induction sched as [|s sched IH]; cbn [steps].
  - apply emits_only_ret.
  - apply emits_only_bind; [|intros _; exact IH].
    destruct s; cbn [step].
    + apply emits_only_silent. intros m. unfold nvic_even.
      destruct (irq_even_enabled m); reflexivity.
    + apply emits_only_silent. intros m. unfold nvic_odd.
      destruct (irq_odd_enabled m); reflexivity.
    + apply loop_iteration_in_range.
Qed.

Lemma main_in_range sched : emits_only Q (main bus sched).
Proof.
  unfold main. apply emits_only_bind;
    [apply boot_emits_no_led | intros _; apply steps_in_range].
Qed.

End QuietBoot.

Lemma led_in_range_writes l :
  Forall led_in_range l ->
  Forall (fun v => v = 0 \/ v = 1 \/ v = 3) (led_writes l).
Proof.
  induction 1 as [|e l He _ IH]; [constructor|].
  destruct e; cbn; try exact IH. constructor; assumption.
Qed.

Lemma not_led_writes l : Forall not_led l -> led_writes l = [].
Proof.
  induction 1 as [|e l He _ IH]; [reflexivity|].
  destruct e; cbn; try exact IH. destruct He.
Qed.

(** X10.  In every run of the program, whatever the bus answers, whatever
    the stack held at power-on and also when the boot sequence never comes
    back, each LED write is one of the three patterns 0, 1 and 3, and the
    boot sequence itself writes none. *)
Theorem leds_only_three_patterns (bus : Bus) (sched : list Step)
  (data algresultData : list Z) :
  Forall (fun v => v = 0 \/ v = 1 \/ v = 3)
         (led_writes (log (exec (main bus sched)
                                (power_on data algresultData)))) /\
  led_writes (log (exec (boot bus) (power_on data algresultData))) = [].
Proof.
  split.
  - destruct (main_in_range bus led_in_range) with (sched := sched)
        (m := power_on data algresultData) as (l & Hl & HQ).
    + intros [] H; exact I || destruct H.
    + intros v Hv. exact Hv.
    + rewrite Hl. cbn [power_on log app]. apply led_in_range_writes, HQ.
  - destruct (boot_emits_no_led bus not_led (fun e H => H)
                (power_on data algresultData)) as (l & Hl & HQ).
    rewrite Hl. cbn [power_on log app]. apply not_led_writes, HQ.
Qed.

Section Shown.

Variable bus : Bus.

Lemma step_shows_buffer (s : Step) (m : Machine) :
  shows_buffer m ->
  exists m', step bus s m = (Some tt, m') /\ shows_buffer m'.
Proof.
  intros Hm. destruct s; cbn [step].
  - eexists. split; [reflexivity|]. unfold nvic_even.
    destruct (irq_even_enabled m); exact Hm.
  - eexists. split; [reflexivity|]. unfold nvic_odd.
    destruct (irq_odd_enabled m); exact Hm.
  - destruct (dataAvailable m) eqn:Havail.
    + rewrite loop_iteration_service by assumption.
      eexists. split; [reflexivity|]. intros _. reflexivity.
    + rewrite loop_iteration_idle by assumption.
      eexists. split; [reflexivity|]. unfold shows_buffer, idled in *.
      cbn. rewrite led_writes_app. cbn. rewrite app_nil_r. exact Hm.
Qed.

Lemma steps_shows_buffer (sched : list Step) :
  forall m, shows_buffer m -> shows_buffer (exec (steps bus sched) m).
Proof.
  induction sched as [|s sched IH]; intros m Hm; [exact Hm|].
  cbn [steps]. unfold exec, bind.
  destruct (step_shows_buffer s m Hm) as (m' & Hrun & Hm').
  rewrite Hrun. apply IH, Hm'.
Qed.

End Shown.

(** X11.  At any point of any run at which the LEDs have been written at
    least once, they show the level of the two bytes the result buffer
    holds at that point. *)
Theorem leds_show_buffer (bus : Bus) (sched : list Step)
  (data algresultData : list Z)
  (Hshown : led_writes (log (exec (main bus sched)
                                  (power_on data algresultData))) <> []) :
  let m := exec (main bus sched) (power_on data algresultData) in
  leds m = led_pattern (classify (concat_bytes (main_algresultData m))).
Proof.
  intros m. subst m. revert Hshown.
  change (shows_buffer (exec (main bus sched) (power_on data algresultData))).
  destruct (boot_emits_no_led bus not_led (fun e H => H)
              (power_on data algresultData)) as (l & Hl & HQ).
  assert (Hboot : shows_buffer (exec (boot bus) (power_on data algresultData))).
  { intros Hne. exfalso. apply Hne. rewrite Hl. cbn [power_on log app].
    apply not_led_writes, HQ. }
  unfold exec, main, bind in *.
  destruct (boot bus (power_on data algresultData)) as [[[]|] m1];
    cbn [snd] in *.
  - apply (steps_shows_buffer bus sched m1 Hboot).
  - exact Hboot.
Qed.

Lemma leds_show_buffer_witness :
  leds (exec (main (bus_ok [0x04; 0x00]) [FireOdd; Turn; Turn])
             (power_on [0] [0; 0])) =
  led_pattern (classify (concat_bytes
    (main_algresultData (exec (main (bus_ok [0x04; 0x00]) [FireOdd; Turn; Turn])
                              (power_on [0] [0; 0]))))).
Proof.
  apply (leds_show_buffer (bus_ok [0x04; 0x00]) [FireOdd; Turn; Turn]
           [0] [0; 0]).
  vm_compute. discriminate.
Defined.


